(** * opentracing-helpers: tracing of inbound handlers and outbound requests

    A shallow embedding of the Go package [opentracing_helpers]
    ([TraceHandler], [TraceRequest]) together with the parts of
    [opentracing-go], [net/http], [context] and [net/http/httptrace] the
    two helpers call.

    The helpers never look inside a span: they talk to whatever tracer is
    registered as the global tracer, through the [opentracing.Tracer] and
    [opentracing.Span] interfaces.  The tracer is therefore a type class
    ([Tracer]); the helpers are programs in a small monad [Exec] that
    threads the program state, propagates panics and records every call
    made through those interfaces, in order. *)

From Stdlib Require Import String List ZArith.
From Stdlib Require Import DecimalString DecimalNat.
From stdpp Require Import base option gmap strings list.

Open Scope string_scope.
Open Scope list_scope.

(** ** Plain data *)

(** A Go [error] value, by its message; [None] is the nil error. *)
Definition error : Type := string.

Definition ErrUnsupportedFormat : error :=
  "opentracing: Unknown or unsupported Inject/Extract format".
Definition ErrSpanContextNotFound : error :=
  "opentracing: SpanContext not found in Extract carrier".
Definition ErrSpanContextCorrupted : error :=
  "opentracing: SpanContext data corrupted in Extract carrier".

(** [opentracing.BuiltinFormat]. *)
Inductive BuiltinFormat : Type := Binary | TextMap | HTTPHeaders.

#[global] Instance BuiltinFormat_eq_dec : EqDecision BuiltinFormat.
Proof. solve_decision. Defined.

(** [http.Header] is [map[string][]string].  A Go map is a reference: the
    request and every shallow copy of it point to the same map, so header
    maps live in a store and a request holds the address of its map.
    Requests are taken as the server and [http.NewRequest] build them, with
    a map allocated: the nil map, which reads as empty and panics when
    written to, is not part of the model. *)
Abbreviation HeaderMap := (gmap string (list string)).
Definition loc : Type := nat.

(** [http.Header.Set] and [http.Header.Get], on keys already in canonical
    form. *)
Definition Header_Set (h : HeaderMap) (key value : string) : HeaderMap :=
  <[key := [value]]> h.
Definition Header_Get (h : HeaderMap) (key : string) : option string :=
  match h !! key with
  | Some (v :: _) => Some v
  | _ => None
  end.

(** [http.ResponseWriter], by the address of the response it writes. *)
Definition ResponseWriter : Type := nat.

(** The argument types of the [httptrace.ClientTrace] hooks. *)
Record GotConnInfo : Type :=
  { Reused : bool; WasIdle : bool; IdleTime : Z }.
Record DNSStartInfo : Type := { Host : string }.
Record DNSDoneInfo : Type :=
  { Addrs : list string; DNSErr : option error; Coalesced : bool }.
Record WroteRequestInfo : Type := { WroteErr : option error }.

(** What [log.Object] is given in this package. *)
Inductive Object : Type :=
| ObjString (s : string)
| ObjGotConnInfo (i : GotConnInfo)
| ObjDNSStartInfo (i : DNSStartInfo)
| ObjDNSDoneInfo (i : DNSDoneInfo)
| ObjWroteRequestInfo (i : WroteRequestInfo).

(** [log.Field], as built by [log.String], [log.Object] and [log.Error]. *)
Inductive Field : Type :=
| log_String (key value : string)
| log_Object (key : string) (obj : Object)
| log_Error (err : option error).

(** The result of running a Go function: it returns, or it panics. *)
Inductive Outcome (A : Type) : Type :=
| Returned (a : A)
| Panicked (v : string).
Arguments Returned {A} a.
Arguments Panicked {A} v.

(** ** The tracer interface *)

Inductive SpanReferenceType : Type := ChildOfRef | FollowsFromRef.

(** [opentracing.SpanReference]; it is also the only [StartSpanOption] the
    helpers pass. *)
Record SpanReference (SC : Type) : Type :=
  { RefType : SpanReferenceType; ReferencedContext : SC }.
Arguments RefType {SC} s.
Arguments ReferencedContext {SC} s.

(** [opentracing.ChildOf]. *)
Definition ChildOf {SC : Type} (sc : SC) : SpanReference SC :=
  {| RefType := ChildOfRef; ReferencedContext := sc |}.

(** [opentracing.Tracer] and [opentracing.Span], as far as the helpers use
    them.  The implementation keeps its data in [TracerState].  [Extract]
    returns Go's pair [(SpanContext, error)], each of which may be nil;
    [Inject] is handed the contents of the carrier and returns what it left
    there. *)
Class Tracer : Type :=
  { SpanContext : Type;
    Span : Type;
    TracerState : Type;
    tracer_StartSpan :
      string -> list (SpanReference SpanContext) -> TracerState ->
      Span * TracerState;
    tracer_Inject :
      SpanContext -> BuiltinFormat -> HeaderMap -> TracerState ->
      HeaderMap * option error * TracerState;
    tracer_Extract :
      BuiltinFormat -> HeaderMap -> TracerState ->
      option SpanContext * option error * TracerState;
    span_Context : Span -> TracerState -> SpanContext;
    span_Finish : Span -> TracerState -> TracerState;
    span_LogFields : Span -> list Field -> TracerState -> TracerState }.

(** ** Program state and the execution monad *)

Section Model.
Context {T : Tracer}.

(** The state a request is served in: the global tracer's data, the header
    maps, and the responses written so far. *)
Record World : Type :=
  { tracer : TracerState;
    headers : gmap loc HeaderMap;
    responses : gmap ResponseWriter (list string) }.

Definition set_tracer (ts : TracerState) (w : World) : World :=
  {| tracer := ts; headers := headers w; responses := responses w |}.
Definition set_headers (hs : gmap loc HeaderMap) (w : World) : World :=
  {| tracer := tracer w; headers := hs; responses := responses w |}.

(** The contents of the header map at an address. *)
Definition deref (w : World) (l : loc) : HeaderMap :=
  default ∅ (headers w !! l).

(** A computation: from a state to an outcome, the new state and the calls
    it made (of type [L]), oldest first. *)
Definition Exec (L A : Type) : Type := World -> Outcome A * World * list L.

Definition Exec_ret {L A : Type} (a : A) : Exec L A :=
  fun w => (Returned a, w, []).

Definition Exec_bind {L A B : Type} (k : A -> Exec L B) (m : Exec L A)
  : Exec L B :=
  fun w =>
    match m w with
    | (Returned a, w1, c1) =>
        match k a w1 with
        | (o, w2, c2) => (o, w2, c1 ++ c2)
        end
    | (Panicked v, w1, c1) => (Panicked v, w1, c1)
    end.

#[global] Instance Exec_MRet (L : Type) : MRet (Exec L) := @Exec_ret L.
#[global] Instance Exec_MBind (L : Type) : MBind (Exec L) := @Exec_bind L.

(** Go's [defer d] followed by [body]: [d] runs when [body] returns and
    when it panics; a panic of [body] goes on after [d] has run, unless [d]
    panics itself. *)
Definition defer {L A : Type} (d : Exec L unit) (body : Exec L A)
  : Exec L A :=
  fun w =>
    match body w with
    | (o, w1, c1) =>
        match d w1 with
        | (Returned _, w2, c2) => (o, w2, c1 ++ c2)
        | (Panicked v, w2, c2) => (Panicked v, w2, c1 ++ c2)
        end
    end.

(** ** Spans reached from callbacks *)

(** A call a lifecycle callback makes on a span. *)
Inductive SpanCall : Type :=
| CallLogFields (span : Span) (fields : list Field).

(** [span.LogFields(fields...)]: one log record holding the fields. *)
Definition LogFields (span : Span) (fields : list Field)
  : Exec SpanCall unit :=
  fun w =>
    (Returned tt, set_tracer (span_LogFields span fields (tracer w)) w,
     [CallLogFields span fields]).

(** A hook of [httptrace.ClientTrace]: nil, or a function of the event's
    data. *)
Definition Hook (A : Type) : Type := option (A -> Exec SpanCall unit).

(** [httptrace.ClientTrace] (the hooks of Go 1.7). *)
Record ClientTrace : Type :=
  { GetConn : Hook string;
    GotConn : Hook GotConnInfo;
    PutIdleConn : Hook (option error);
    GotFirstResponseByte : Hook unit;
    Got100Continue : Hook unit;
    DNSStart : Hook DNSStartInfo;
    DNSDone : Hook DNSDoneInfo;
    ConnectStart : Hook (string * string);
    ConnectDone : Hook (string * string * option error);
    WroteHeaders : Hook unit;
    Wait100Continue : Hook unit;
    WroteRequest : Hook WroteRequestInfo }.

(** One field of [ClientTrace.compose]: with both hooks set, the new one
    runs first and then the old one. *)
Definition compose_hook {A : Type} (new old : Hook A) : Hook A :=
  match old with
  | None => new
  | Some o =>
      match new with
      | None => Some o
      | Some n => Some (fun a => n a ;; o a)
      end
  end.

Definition compose (t : ClientTrace) (old : option ClientTrace)
  : ClientTrace :=
  match old with
  | None => t
  | Some o =>
      {| GetConn := compose_hook (GetConn t) (GetConn o);
         GotConn := compose_hook (GotConn t) (GotConn o);
         PutIdleConn := compose_hook (PutIdleConn t) (PutIdleConn o);
         GotFirstResponseByte :=
           compose_hook (GotFirstResponseByte t) (GotFirstResponseByte o);
         Got100Continue :=
           compose_hook (Got100Continue t) (Got100Continue o);
         DNSStart := compose_hook (DNSStart t) (DNSStart o);
         DNSDone := compose_hook (DNSDone t) (DNSDone o);
         ConnectStart := compose_hook (ConnectStart t) (ConnectStart o);
         ConnectDone := compose_hook (ConnectDone t) (ConnectDone o);
         WroteHeaders := compose_hook (WroteHeaders t) (WroteHeaders o);
         Wait100Continue :=
           compose_hook (Wait100Continue t) (Wait100Continue o);
         WroteRequest := compose_hook (WroteRequest t) (WroteRequest o) |}
  end.

(** The events of a client round trip that have a hook. *)
Inductive Event : Type :=
| EvGetConn (hostPort : string)
| EvGotConn (connInfo : GotConnInfo)
| EvPutIdleConn (err : option error)
| EvGotFirstResponseByte
| EvGot100Continue
| EvDNSStart (dnsInfo : DNSStartInfo)
| EvDNSDone (dnsInfo : DNSDoneInfo)
| EvConnectStart (network addr : string)
| EvConnectDone (network addr : string) (err : option error)
| EvWroteHeaders
| EvWait100Continue
| EvWroteRequest (info : WroteRequestInfo).

(** The transport's [if trace.X != nil { trace.X(...) }]. *)
Definition call_hook {A : Type} (h : Hook A) (a : A) : Exec SpanCall unit :=
  match h with
  | Some f => f a
  | None => mret tt
  end.

Definition fire (t : ClientTrace) (e : Event) : Exec SpanCall unit :=
  match e with
  | EvGetConn hostPort => call_hook (GetConn t) hostPort
  | EvGotConn connInfo => call_hook (GotConn t) connInfo
  | EvPutIdleConn err => call_hook (PutIdleConn t) err
  | EvGotFirstResponseByte => call_hook (GotFirstResponseByte t) tt
  | EvGot100Continue => call_hook (Got100Continue t) tt
  | EvDNSStart dnsInfo => call_hook (DNSStart t) dnsInfo
  | EvDNSDone dnsInfo => call_hook (DNSDone t) dnsInfo
  | EvConnectStart network addr => call_hook (ConnectStart t) (network, addr)
  | EvConnectDone network addr err =>
      call_hook (ConnectDone t) (network, addr, err)
  | EvWroteHeaders => call_hook (WroteHeaders t) tt
  | EvWait100Continue => call_hook (Wait100Continue t) tt
  | EvWroteRequest info => call_hook (WroteRequest t) info
  end.

(** The events of one round trip, fired in order. *)
Fixpoint fire_all (t : ClientTrace) (es : list Event) : Exec SpanCall unit :=
  match es with
  | [] => mret tt
  | e :: es' => fire t e ;; fire_all t es'
  end.

(** ** Contexts and requests *)

(** The keys the helpers and their libraries store values under. *)
Inductive ctxKey : Type :=
| activeSpanKey
| clientEventContextKey
| otherKey (name : string).

#[global] Instance ctxKey_eq_dec : EqDecision ctxKey.
Proof. solve_decision. Defined.

Inductive ctxVal : Type :=
| ValSpan (span : Span)
| ValClientTrace (trace : ClientTrace)
| ValOther (v : string).

(** A [context.Context]: the chain of [WithValue] wrappers, innermost
    last; [[]] is [context.Background()]. *)
Definition Context : Type := list (ctxKey * ctxVal).

Definition Background : Context := [].

Definition WithValue (parent : Context) (key : ctxKey) (val : ctxVal)
  : Context :=
  (key, val) :: parent.

Fixpoint Value (c : Context) (key : ctxKey) : option ctxVal :=
  match c with
  | [] => None
  | (k, v) :: parent => if decide (k = key) then Some v else Value parent key
  end.

(** [opentracing.ContextWithSpan] and [opentracing.SpanFromContext]. *)
Definition ContextWithSpan (c : Context) (span : Span) : Context :=
  WithValue c activeSpanKey (ValSpan span).

Definition SpanFromContext (c : Context) : option Span :=
  match Value c activeSpanKey with
  | Some (ValSpan sp) => Some sp
  | _ => None
  end.

(** [httptrace.ContextClientTrace] and [httptrace.WithClientTrace]. *)
Definition ContextClientTrace (c : Context) : option ClientTrace :=
  match Value c clientEventContextKey with
  | Some (ValClientTrace t) => Some t
  | _ => None
  end.

Definition WithClientTrace (c : Context) (trace : ClientTrace) : Context :=
  let old := ContextClientTrace c in
  WithValue c clientEventContextKey (ValClientTrace (compose trace old)).

(** [http.Request]: the fields the helpers read, the header map by its
    address. *)
Record Request : Type :=
  { Method : string;
    URL : string;
    Header : loc;
    ctx : Context }.

(** [r.Context()] and [r.WithContext(ctx)]; the latter is a shallow copy,
    so the copy has the header map of [r]. *)
Definition Request_Context (r : Request) : Context := ctx r.

Definition WithContext (r : Request) (c : Context) : Request :=
  {| Method := Method r; URL := URL r; Header := Header r; ctx := c |}.

(** [opentracing.HTTPHeadersCarrier(h)] is a conversion: the carrier is the
    map [h] itself. *)
Definition HTTPHeadersCarrier (h : loc) : loc := h.

(** ** Calls made by the helpers *)

(** A call through the tracer, span or handler interface, with what it was
    given and what it returned. *)
Inductive Call : Type :=
| CallExtract (format : BuiltinFormat) (carrier : loc)
    (sc : option SpanContext) (err : option error)
| CallStartSpan (operationName : string)
    (opts : list (SpanReference SpanContext)) (span : Span)
| CallInject (sc : SpanContext) (format : BuiltinFormat) (carrier : loc)
    (err : option error)
| CallFinish (span : Span)
| CallServeHTTP (w : ResponseWriter) (r : Request).

Definition M (A : Type) : Type := Exec Call A.

(** [opentracing.GlobalTracer().Extract(format, carrier)]. *)
Definition Extract (format : BuiltinFormat) (carrier : loc)
  : M (option SpanContext * option error) :=
  fun w =>
    match tracer_Extract format (deref w carrier) (tracer w) with
    | (sc, err, ts) =>
        (Returned (sc, err), set_tracer ts w,
         [CallExtract format carrier sc err])
    end.

(** [opentracing.GlobalTracer().Inject(sc, format, carrier)]: the tracer
    writes into the map the carrier refers to. *)
Definition Inject (sc : SpanContext) (format : BuiltinFormat) (carrier : loc)
  : M (option error) :=
  fun w =>
    match tracer_Inject sc format (deref w carrier) (tracer w) with
    | (h, err, ts) =>
        (Returned err,
         set_headers (<[carrier := h]> (headers w)) (set_tracer ts w),
         [CallInject sc format carrier err])
    end.

(** [opentracing.StartSpan(operationName, opts...)], which starts the span
    with the global tracer. *)
Definition StartSpan (operationName : string)
    (opts : list (SpanReference SpanContext)) : M Span :=
  fun w =>
    match tracer_StartSpan operationName opts (tracer w) with
    | (span, ts) =>
        (Returned span, set_tracer ts w,
         [CallStartSpan operationName opts span])
    end.

(** [span.Context()]. *)
Definition Span_Context (span : Span) : M SpanContext :=
  fun w => (Returned (span_Context span (tracer w)), w, []).

(** [span.Finish()]. *)
Definition Finish (span : Span) : M unit :=
  fun w =>
    (Returned tt, set_tracer (span_Finish span (tracer w)) w,
     [CallFinish span]).

(** [opentracing.StartSpanFromContext(ctx, operationName)]. *)
Definition StartSpanFromContext (c : Context) (operationName : string)
  : M (Span * Context) :=
  opts ← match SpanFromContext c with
         | Some parentSpan =>
             psc ← Span_Context parentSpan; mret [ChildOf psc]
         | None => mret []
         end;
  span ← StartSpan operationName opts;
  mret (span, ContextWithSpan c span).

(** An [http.Handler] supplied by the user of the package: any function of
    the response writer, the request and the state that returns or
    panics. *)
Definition Handler : Type :=
  ResponseWriter -> Request -> World -> Outcome unit * World.

(** [handler.ServeHTTP(w, r)]. *)
Definition ServeHTTP (handler : Handler) (w : ResponseWriter) (r : Request)
  : M unit :=
  fun world =>
    match handler w r world with
    | (o, world') => (o, world', [CallServeHTTP w r])
    end.

(** [http.HandlerFunc]. *)
Definition HandlerFunc : Type := ResponseWriter -> Request -> M unit.

(** ** Reading a record of calls *)

(** The spans started, with the name and the references given. *)
Fixpoint started (cs : list Call)
  : list (string * list (SpanReference SpanContext) * Span) :=
  match cs with
  | [] => []
  | CallStartSpan n opts sp :: cs' => (n, opts, sp) :: started cs'
  | _ :: cs' => started cs'
  end.

(** The spans finished, one entry per call of [Finish]. *)
Fixpoint finished (cs : list Call) : list Span :=
  match cs with
  | [] => []
  | CallFinish sp :: cs' => sp :: finished cs'
  | _ :: cs' => finished cs'
  end.

(** The requests the wrapped handler was called with. *)
Fixpoint served (cs : list Call) : list Request :=
  match cs with
  | [] => []
  | CallServeHTTP _ r :: cs' => r :: served cs'
  | _ :: cs' => served cs'
  end.

End Model.

Arguments World T : clear implicits.
Arguments Request T : clear implicits.
Arguments Call T : clear implicits.
Arguments Handler T : clear implicits.

(** ** The package, as in [src/opentracing_helpers.go] (the third source
    file holds the same function) *)

Module OpentracingHelpers.
Section WithTracer.
Context {T : Tracer}.

Definition TraceHandler (pattern : string) (handler : Handler T)
  : string * HandlerFunc :=
  (pattern,
   fun w r =>
     (* Look for the request caller's SpanContext in the headers *)
     let carrier := HTTPHeadersCarrier (Header r) in
     '(parentSpanContext, _) ← Extract HTTPHeaders carrier;
     span ← match parentSpanContext with
            | None => StartSpan pattern []
            | Some psc => StartSpan pattern [ChildOf psc]
            end;
     defer (Finish span)
       (let r := WithContext r (ContextWithSpan (Request_Context r) span) in
        ServeHTTP handler w r)).

End WithTracer.
End OpentracingHelpers.

(** ** The package, as in the source file with [TraceRequest] *)

Module Part000.
Section WithTracer.
Context {T : Tracer}.

Definition TraceHandler (pattern : string) (handler : Handler T)
  : string * HandlerFunc :=
  (pattern,
   fun w r =>
     let carrier := HTTPHeadersCarrier (Header r) in
     '(parentSpanContext, _) ← Extract HTTPHeaders carrier;
     let spanName := Method r +:+ " " +:+ pattern in
     span ← match parentSpanContext with
            | None => StartSpan spanName []
            | Some psc => StartSpan spanName [ChildOf psc]
            end;
     defer (Finish span)
       (let r := WithContext r (ContextWithSpan (Request_Context r) span) in
        ServeHTTP handler w r)).

(** The [httptrace.ClientTrace] literal of [TraceRequest]; every closure
    captures [span]. *)
Definition TraceRequest_trace (span : Span) : ClientTrace :=
  {| GetConn := Some (fun hostPort =>
       LogFields span
         [log_String "event" "Get Connection ";
          log_String "host:port" hostPort]);
     GotConn := Some (fun connInfo =>
       LogFields span
         [log_String "event" "Got Connection";
          log_Object "connection info" (ObjGotConnInfo connInfo)]);
     PutIdleConn := None;
     GotFirstResponseByte := Some (fun _ =>
       LogFields span [log_String "event" "Got First Response Byte"]);
     Got100Continue := None;
     DNSStart := Some (fun dnsInfo =>
       LogFields span
         [log_String "event" "DNS Start";
          log_Object "dns start info" (ObjDNSStartInfo dnsInfo)]);
     DNSDone := Some (fun dnsInfo =>
       LogFields span
         [log_String "event" "DNS Done";
          log_Object "dns done info" (ObjDNSDoneInfo dnsInfo)]);
     ConnectStart := None;
     ConnectDone := Some (fun '(network, addr, err) =>
       LogFields span
         [log_String "event" "Connect Done";
          log_Object "network" (ObjString network);
          log_String "address" addr;
          log_Error err]);
     WroteHeaders := None;
     Wait100Continue := None;
     WroteRequest := Some (fun info =>
       LogFields span
         [log_String "event" "Wrote Request";
          log_Object "wrote request info" (ObjWroteRequestInfo info)]) |}.

Definition TraceRequest (operationName : string) (c : Context)
    (r : Request T) : M (Request T * Span) :=
  '(span, c) ← StartSpanFromContext c operationName;
  sc ← Span_Context span;
  Inject sc HTTPHeaders (HTTPHeadersCarrier (Header r));;
  let trace := TraceRequest_trace span in
  mret (WithContext r (WithClientTrace (Request_Context r) trace), span).

End WithTracer.
End Part000.

(** ** Tracers to run the helpers with *)

(** [opentracing.NoopTracer], the global tracer until one is registered:
    one span, nothing written, nothing found. *)
Definition NoopTracer : Tracer :=
  {| SpanContext := unit;
     Span := unit;
     TracerState := unit;
     tracer_StartSpan := fun _ _ ts => (tt, ts);
     tracer_Inject := fun _ _ h ts => (h, None, ts);
     tracer_Extract := fun _ _ ts => (None, Some ErrSpanContextNotFound, ts);
     span_Context := fun _ _ => tt;
     span_Finish := fun _ ts => ts;
     span_LogFields := fun _ _ ts => ts |}.

(** A tracer that keeps every span it starts, after the mock tracer that
    comes with [opentracing-go]: identifiers are numbers, written to the
    carrier in decimal under two keys. *)
Module Recording.

Record Config : Type :=
  { (* the formats an injector and an extractor are registered for *)
    supported : BuiltinFormat -> bool;
    (* on a failed extraction, return the zero context next to the error
       instead of nil *)
    zero_context_on_error : bool }.

Record RecSpanContext : Type := { TraceID : nat; SpanID : nat }.

Record RecSpan : Type :=
  { SpanCtx : RecSpanContext;
    ParentID : nat;
    OperationName : string;
    Logs : list (list Field);
    FinishCount : nat }.

Record State : Type := { nextID : nat; spans : gmap nat RecSpan }.

Definition emptyContext : RecSpanContext := {| TraceID := 0; SpanID := 0 |}.
Definition init : State := {| nextID := 1; spans := ∅ |}.

Definition traceKey : string := "Mockpfx-Ids-Traceid".
Definition spanKey : string := "Mockpfx-Ids-Spanid".

Definition print_id (n : nat) : string :=
  NilEmpty.string_of_uint (Nat.to_uint n).
Definition parse_id (s : string) : option nat :=
  option_map Nat.of_uint (NilEmpty.uint_of_string s).

Definition StartSpan (operationName : string)
    (opts : list (SpanReference RecSpanContext)) (st : State)
  : nat * State :=
  let id := nextID st in
  let '(traceID, parentID, next) :=
    match opts with
    | ref :: _ =>
        (TraceID (ReferencedContext ref), SpanID (ReferencedContext ref),
         S id)
    | [] => (S id, 0, S (S id))
    end in
  let sp :=
    {| SpanCtx := {| TraceID := traceID; SpanID := id |};
       ParentID := parentID;
       OperationName := operationName;
       Logs := [];
       FinishCount := 0 |} in
  (id, {| nextID := next; spans := <[id := sp]> (spans st) |}).

Definition Inject (cfg : Config) (sc : RecSpanContext) (format : BuiltinFormat)
    (h : HeaderMap) (st : State) : HeaderMap * option error * State :=
  if supported cfg format then
    (Header_Set (Header_Set h traceKey (print_id (TraceID sc)))
       spanKey (print_id (SpanID sc)),
     None, st)
  else (h, Some ErrUnsupportedFormat, st).

Definition failed (cfg : Config) (e : error)
  : option RecSpanContext * option error :=
  (if zero_context_on_error cfg then Some emptyContext else None, Some e).

Definition Extract (cfg : Config) (format : BuiltinFormat) (h : HeaderMap)
    (st : State) : option RecSpanContext * option error * State :=
  if supported cfg format then
    match Header_Get h traceKey, Header_Get h spanKey with
    | Some t, Some s =>
        match parse_id t, parse_id s with
        | Some traceID, Some spanID =>
            (Some {| TraceID := traceID; SpanID := spanID |}, None, st)
        | _, _ => (failed cfg ErrSpanContextCorrupted, st)
        end
    | _, _ => (failed cfg ErrSpanContextNotFound, st)
    end
  else (None, Some ErrUnsupportedFormat, st).

Definition span_context (sp : nat) (st : State) : RecSpanContext :=
  match spans st !! sp with
  | Some s => SpanCtx s
  | None => emptyContext
  end.

Definition Finish (sp : nat) (st : State) : State :=
  {| nextID := nextID st;
     spans :=
       alter (fun s =>
                {| SpanCtx := SpanCtx s; ParentID := ParentID s;
                   OperationName := OperationName s; Logs := Logs s;
                   FinishCount := S (FinishCount s) |}) sp (spans st) |}.

Definition LogFields (sp : nat) (fields : list Field) (st : State) : State :=
  {| nextID := nextID st;
     spans :=
       alter (fun s =>
                {| SpanCtx := SpanCtx s; ParentID := ParentID s;
                   OperationName := OperationName s;
                   Logs := Logs s ++ [fields];
                   FinishCount := FinishCount s |}) sp (spans st) |}.

Definition tracer (cfg : Config) : Tracer :=
  {| SpanContext := RecSpanContext;
     Span := nat;
     TracerState := State;
     tracer_StartSpan := StartSpan;
     tracer_Inject := Inject cfg;
     tracer_Extract := Extract cfg;
     span_Context := span_context;
     span_Finish := Finish;
     span_LogFields := LogFields |}.

(** Text formats registered, nil context on error. *)
Definition standard : Config :=
  {| supported := fun f => match f with Binary => false | _ => true end;
     zero_context_on_error := false |}.

(** The same, with an extractor that hands back the zero context together
    with its error. *)
Definition zero_on_error : Config :=
  {| supported := supported standard; zero_context_on_error := true |}.

(** No format registered: every [Inject] and [Extract] fails. *)
Definition no_formats : Config :=
  {| supported := fun _ => false; zero_context_on_error := false |}.

End Recording.

(** ** Laws a tracer may satisfy *)

(** What [Inject] writes for the HTTP header format, [Extract] reads back;
    and serializing a context leaves the contexts of the spans alone. *)
Class CarrierRoundTrip (T : Tracer) : Prop :=
  { inject_succeeds :
      forall sc h ts, (tracer_Inject sc HTTPHeaders h ts).1.2 = None;
    extract_inject :
      forall sc h ts,
        let r := tracer_Inject sc HTTPHeaders h ts in
        (tracer_Extract HTTPHeaders r.1.1 r.2).1 = (Some sc, None);
    inject_keeps_contexts :
      forall sp sc h ts,
        span_Context sp (tracer_Inject sc HTTPHeaders h ts).2
        = span_Context sp ts }.

(** ** Inputs used in examples *)

Definition empty_world {T : Tracer} (ts : TracerState) : World T :=
  {| tracer := ts; headers := {[ 0 := ∅ ]}; responses := ∅ |}.

(** A request as a server or [http.NewRequest] builds it: an empty header
    map at address 0 and the background context. *)
Definition plain_request {T : Tracer} (method url : string) : Request T :=
  {| Method := method; URL := url; Header := 0; ctx := Background |}.

(** A handler that writes a body and returns, and one that panics. *)
Definition ok_handler (T : Tracer) : Handler T :=
  fun w r world =>
    (Returned tt,
     {| tracer := tracer world; headers := headers world;
        responses := <[w := ["ok"]]> (responses world) |}).

Definition panicking_handler (T : Tracer) : Handler T :=
  fun w r world => (Panicked "boom", world).

(** ** Properties of a run *)

Section Properties.
Context {T : Tracer}.

(** What a run leaves: outcome, state, calls. *)
Definition Result (A : Type) : Type := Outcome A * World T * list (Call T).

(** The references [TraceHandler] starts its span with. *)
Definition parent_refs (psc : option SpanContext)
  : list (SpanReference SpanContext) :=
  match psc with
  | None => []
  | Some p => [ChildOf p]
  end.

(** The request the wrapped handler receives. *)
Definition with_span (r : Request T) (span : Span) : Request T :=
  WithContext r (ContextWithSpan (Request_Context r) span).

(** One request served by a handler that [TraceHandler] built, for a span
    named [spanName]: the four calls, and where each result comes from. *)
Inductive served_traced (spanName : string) (handler : Handler T)
    (w : ResponseWriter) (r : Request T) (world : World T)
  : Result unit -> Prop :=
| ServedTraced psc err ts1 span ts2 o world3 :
    tracer_Extract HTTPHeaders (deref world (Header r)) (tracer world)
      = (psc, err, ts1) ->
    tracer_StartSpan spanName (parent_refs psc) ts1 = (span, ts2) ->
    handler w (with_span r span) (set_tracer ts2 (set_tracer ts1 world))
      = (o, world3) ->
    served_traced spanName handler w r world
      (o, set_tracer (span_Finish span (tracer world3)) world3,
       [CallExtract HTTPHeaders (Header r) psc err;
        CallStartSpan spanName (parent_refs psc) span;
        CallServeHTTP w (with_span r span);
        CallFinish span]).

(** The state the wrapped handler is entered in, for a span started with
    [refs] under the name [spanName]. *)
Definition entry_world (spanName : string)
    (refs : list (SpanReference SpanContext)) (r : Request T)
    (world : World T) : World T :=
  let ts1 :=
    (tracer_Extract HTTPHeaders (deref world (Header r)) (tracer world)).2 in
  set_tracer (tracer_StartSpan spanName refs ts1).2 (set_tracer ts1 world).

(** One span is started, the wrapped handler is called once, and [Finish]
    is called once, on that span, as the last call, whatever the outcome
    of the wrapped handler, which is the outcome of the run. *)
Definition finishes_once (handler : Handler T) (w : ResponseWriter)
    (r : Request T) (world : World T) (res : Result unit) : Prop :=
  exists name refs span pre,
    res.2 = pre ++ [CallStartSpan name refs span;
                    CallServeHTTP w (with_span r span);
                    CallFinish span]
    /\ started res.2 = [(name, refs, span)]
    /\ finished res.2 = [span]
    /\ res.1.1 = (handler w (with_span r span)
                    (entry_world name refs r world)).1
    /\ res.1.2 =
         (let world3 :=
            (handler w (with_span r span)
               (entry_world name refs r world)).2 in
          set_tracer (span_Finish span (tracer world3)) world3).

(** The one span started has the name [name] and the references [refs]. *)
Definition starts_span (name : string)
    (refs : list (SpanReference SpanContext)) (res : Result unit) : Prop :=
  exists span, started res.2 = [(name, refs, span)].

(** The run goes through to the wrapped handler and ends as it does. *)
Definition ends_as_handler (name : string)
    (refs : list (SpanReference SpanContext)) (handler : Handler T)
    (w : ResponseWriter) (r : Request T) (world : World T)
    (res : Result unit) : Prop :=
  exists span,
    started res.2 = [(name, refs, span)]
    /\ served res.2 = [with_span r span]
    /\ res.1.1 = (handler w (with_span r span)
                    (entry_world name refs r world)).1.

(** The span is finished, once, after the wrapped handler was called. *)
Definition finished_after_handler (res : Result unit) : Prop :=
  exists name refs span pre w r',
    res.2 = pre ++ [CallServeHTTP w r'; CallFinish span]
    /\ started res.2 = [(name, refs, span)]
    /\ finished res.2 = [span].

(** The wrapped handler is called, after the span was started, with the
    request of the run but for its context, in which [SpanFromContext]
    finds that span. *)
Definition serves_with_span (handler : Handler T) (w : ResponseWriter)
    (r : Request T) (world : World T) (res : Result unit) : Prop :=
  exists name refs span pre post r',
    res.2 = pre ++ CallStartSpan name refs span :: CallServeHTTP w r' :: post
    /\ started res.2 = [(name, refs, span)]
    /\ served res.2 = [r']
    /\ SpanFromContext (Request_Context r') = Some span
    /\ Method r' = Method r /\ URL r' = URL r /\ Header r' = Header r
    /\ res.1.1 = (handler w r' (entry_world name refs r world)).1.

(** The references [StartSpanFromContext] uses: a child of the span in the
    context, if there is one. *)
Definition context_refs (c : Context) (world : World T)
  : list (SpanReference SpanContext) :=
  match SpanFromContext c with
  | Some parentSpan => [ChildOf (span_Context parentSpan (tracer world))]
  | None => []
  end.

(** Extracting from the returned request's headers, in the state the run
    left, gives the context of the returned span and no error. *)
Definition round_trips (res : Result (Request T * Span)) : Prop :=
  exists r' span,
    res.1.1 = Returned (r', span)
    /\ (tracer_Extract HTTPHeaders (deref res.1.2 (Header r'))
          (tracer res.1.2)).1
       = (Some (span_Context span (tracer res.1.2)), None).

(** The events whose hook [TraceRequest] sets, as the claim lists them. *)
Definition logged (e : Event) : bool :=
  match e with
  | EvGetConn _ | EvGotConn _ | EvDNSStart _ | EvDNSDone _
  | EvConnectDone _ _ _ | EvGotFirstResponseByte | EvWroteRequest _ => true
  | _ => false
  end.

(** Firing the hooks a context held before, if any. *)
Definition fire_old (old : option ClientTrace) (e : Event)
  : Exec SpanCall unit :=
  match old with
  | Some o => fire o e
  | None => mret tt
  end.

(** The client trace in the context of the request a run returned. *)
Definition returned_trace (res : Result (Request T * Span))
  : option ClientTrace :=
  match res.1.1 with
  | Returned (r', _) => ContextClientTrace (Request_Context r')
  | Panicked _ => None
  end.

End Properties.

(** ** Concrete tracers, states and requests *)

Definition rec_std : Tracer := Recording.tracer Recording.standard.
Definition rec_zero : Tracer := Recording.tracer Recording.zero_on_error.
Definition rec_none : Tracer := Recording.tracer Recording.no_formats.

(** No span yet, and one header map, empty, at address 0. *)
Definition std_world : World rec_std :=
  empty_world (T := rec_std) Recording.init.
Definition zero_world : World rec_zero :=
  empty_world (T := rec_zero) Recording.init.
Definition none_world : World rec_none :=
  empty_world (T := rec_none) Recording.init.
Definition noop_world : World NoopTracer := empty_world (T := NoopTracer) tt.

(** The header map at address 0 carries the context of span 9 of trace 5. *)
Definition traced_world : World rec_std :=
  @Build_World rec_std Recording.init
    {[ 0 := {[ Recording.traceKey := ["5"]; Recording.spanKey := ["9"] ]} ]}
    ∅.

(** The header map at address 0 has trace headers, one of them not a
    number. *)
Definition corrupt_world : World rec_zero :=
  @Build_World rec_zero Recording.init
    {[ 0 := {[ Recording.traceKey := ["x"]; Recording.spanKey := ["9"] ]} ]}
    ∅.

Definition get_foo (T : Tracer) : Request T := plain_request "GET" "/foo".
Definition get_example (T : Tracer) : Request T :=
  plain_request "GET" "http://example.com/".

(** What [Extract] returns for [get_foo] in a given state. *)
Definition extract_foo (T : Tracer) (world : World T)
  : option SpanContext * option error * TracerState :=
  tracer_Extract HTTPHeaders (deref world (Header (get_foo T)))
    (tracer world).

(** [get_foo] served under the pattern "/foo", by either version. *)
Definition helpers_foo (T : Tracer) (handler : Handler T) (world : World T)
  : Result unit :=
  (OpentracingHelpers.TraceHandler "/foo" handler).2 7 (get_foo T) world.
Definition part000_foo (T : Tracer) (handler : Handler T) (world : World T)
  : Result unit :=
  (Part000.TraceHandler "/foo" handler).2 7 (get_foo T) world.

(** [get_example] traced from the background context. *)
Definition trace_example (T : Tracer) (world : World T)
  : Result (Request T * Span) :=
  Part000.TraceRequest "GET example.com" Background (get_example T) world.

(** The events of a round trip to an IP-literal host: no DNS lookup. *)
Definition ip_literal_events : list Event :=
  [EvGetConn "10.0.0.1:80";
   EvConnectStart "tcp" "10.0.0.1:80";
   EvConnectDone "tcp" "10.0.0.1:80" None;
   EvGotConn {| Reused := false; WasIdle := false; IdleTime := 0 |};
   EvWroteHeaders;
   EvWroteRequest {| WroteErr := None |};
   EvGotFirstResponseByte].

(** The log records of a span of the recording tracer. *)
Definition recorded_logs (st : Recording.State) (sp : nat)
  : list (list Field) :=
  match Recording.spans st !! sp with
  | Some s => Recording.Logs s
  | None => []
  end.

(** ** Further readers and properties of a run *)

Section Readers.
Context {T : Tracer}.

(** The carriers read, with the format asked for. *)
Fixpoint extracted (cs : list (Call T)) : list (BuiltinFormat * loc) :=
  match cs with
  | [] => []
  | CallExtract f l _ _ :: cs' => (f, l) :: extracted cs'
  | _ :: cs' => extracted cs'
  end.

(** The contexts serialized, with the format and the carrier written to. *)
Fixpoint injected (cs : list (Call T))
  : list (SpanContext * BuiltinFormat * loc) :=
  match cs with
  | [] => []
  | CallInject sc f l _ :: cs' => (sc, f, l) :: injected cs'
  | _ :: cs' => injected cs'
  end.

(** The request passed to the wrapped handler has, under every key but the
    one of the active span, the value the served request had; in
    particular its client trace. *)
Definition passes_context (r : Request T) (res : Result unit) : Prop :=
  exists r',
    served res.2 = [r']
    /\ (forall key,
          key <> activeSpanKey ->
          Value (Request_Context r') key = Value (Request_Context r) key)
    /\ ContextClientTrace (Request_Context r')
       = ContextClientTrace (Request_Context r).

(** A span that [TraceRequest] starts from the context of the request the
    wrapped handler received is a child of the span of the run. *)
Definition outbound_is_child (res : Result unit) : Prop :=
  exists name refs span r',
    started res.2 = [(name, refs, span)]
    /\ served res.2 = [r']
    /\ forall op (req : Request T) (world' : World T),
         exists new,
           started
             (Part000.TraceRequest op (Request_Context r') req world').2
           = [(op, [ChildOf (span_Context span (tracer world'))], new)].

(** The run reads the header map of the request once and writes to none;
    the wrapped handler starts with the header maps and responses of the
    run, and the run ends with those the wrapped handler left. *)
Definition writes_nothing (handler : Handler T) (w : ResponseWriter)
    (r : Request T) (world : World T) (res : Result unit) : Prop :=
  extracted res.2 = [(HTTPHeaders, Header r)]
  /\ injected res.2 = []
  /\ exists name refs span,
       started res.2 = [(name, refs, span)]
       /\ headers (entry_world name refs r world) = headers world
       /\ responses (entry_world name refs r world) = responses world
       /\ headers res.1.2
          = headers (handler w (with_span r span)
                       (entry_world name refs r world)).2
       /\ responses res.1.2
          = responses (handler w (with_span r span)
                         (entry_world name refs r world)).2.

(** A call that logs a record whose first field is the event's name. *)
Definition names_event (span : Span) (c : SpanCall) : Prop :=
  exists name rest,
    c = CallLogFields span (log_String "event" name :: rest).

End Readers.

(** Two events of the same kind: they go to the same hook. *)
Definition same_hook (e1 e2 : Event) : bool :=
  match e1, e2 with
  | EvGetConn _, EvGetConn _
  | EvGotConn _, EvGotConn _
  | EvPutIdleConn _, EvPutIdleConn _
  | EvGotFirstResponseByte, EvGotFirstResponseByte
  | EvGot100Continue, EvGot100Continue
  | EvDNSStart _, EvDNSStart _
  | EvDNSDone _, EvDNSDone _
  | EvConnectStart _ _, EvConnectStart _ _
  | EvConnectDone _ _ _, EvConnectDone _ _ _
  | EvWroteHeaders, EvWroteHeaders
  | EvWait100Continue, EvWait100Continue
  | EvWroteRequest _, EvWroteRequest _ => true
  | _, _ => false
  end.

(** A POST request for the same URL as [get_foo]. *)
Definition post_foo (T : Tracer) : Request T := plain_request "POST" "/foo".

(** * Theorems *)

(** ** Running the monad *)

Ltac unfold_exec :=
  unfold mbind, mret, Exec_MBind, Exec_MRet, Exec_bind, Exec_ret, defer,
    Extract, Inject, StartSpan, Span_Context, Finish, ServeHTTP, LogFields,
    HTTPHeadersCarrier in *.

Section MonadLaws.
Context {T : Tracer} {L : Type}.

Lemma Exec_bind_ret_l {A B : Type} (a : A) (k : A -> Exec L B) (w : World T) :
  (mret a ≫= k) w = k a w.
Proof. unfold_exec. by destruct (k a w) as [[o w2] c2]. Qed.

Lemma Exec_bind_ret_r (m : Exec L unit) (w : World T) :
  (m ;; mret tt) w = m w.
Proof.
  unfold_exec. destruct (m w) as [[[[]|v] w1] c1]; [|done].
  by rewrite app_nil_r.
Qed.

Lemma defer_runs_on_panic {A : Type} (d : Exec L unit) (body : Exec L A)
    (w w1 w2 : World T) (v : string) (c1 c2 : list L) :
  body w = (Panicked v, w1, c1) ->
  d w1 = (Returned tt, w2, c2) ->
  defer d body w = (Panicked v, w2, c1 ++ c2).
Proof. intros Hb Hd. unfold defer. by rewrite Hb, Hd. Qed.

End MonadLaws.

(** ** [TraceHandler] *)

Section TraceHandlerFacts.
Context {T : Tracer}.

Ltac run_handler handler :=
  simpl; unfold_exec;
  destruct (tracer_Extract _ _ _) as [[psc err] ts1] eqn:HE;
  destruct psc as [p|]; simpl;
  (destruct (tracer_StartSpan _ _ _) as [span ts2] eqn:HS;
   destruct (handler _ _ _) as [o world3] eqn:HH; simpl;
   first
     [ exact (ServedTraced _ _ _ _ _ (Some p) err _ _ _ _ _ HE HS HH)
     | exact (ServedTraced _ _ _ _ _ None err _ _ _ _ _ HE HS HH) ]).

Lemma helpers_served_traced pattern (handler : Handler T) w r world :
  served_traced pattern handler w r world
    ((OpentracingHelpers.TraceHandler pattern handler).2 w r world).
Proof. run_handler handler. Qed.

Lemma part000_served_traced pattern (handler : Handler T) w r world :
  served_traced (Method r +:+ " " +:+ pattern) handler w r world
    ((Part000.TraceHandler pattern handler).2 w r world).
Proof. run_handler handler. Qed.

Lemma TraceHandler_pattern pattern (handler : Handler T) :
  (OpentracingHelpers.TraceHandler pattern handler).1 = pattern
  /\ (Part000.TraceHandler pattern handler).1 = pattern.
Proof. done. Qed.

Lemma entry_world_eq name (r : Request T) world psc err ts1 span ts2 :
  tracer_Extract HTTPHeaders (deref world (Header r)) (tracer world)
    = (psc, err, ts1) ->
  tracer_StartSpan name (parent_refs psc) ts1 = (span, ts2) ->
  entry_world name (parent_refs psc) r world
  = set_tracer ts2 (set_tracer ts1 world).
Proof. intros HE HS. unfold entry_world. by rewrite HE; simpl; rewrite HS. Qed.

Lemma served_traced_finishes_once name (handler : Handler T) w r world res :
  served_traced name handler w r world res ->
  finishes_once handler w r world res.
Proof.
  intros [psc err ts1 span ts2 o world3 HE HS HH].
  exists name, (parent_refs psc), span,
    [CallExtract HTTPHeaders (Header r) psc err].
  rewrite (entry_world_eq _ _ _ _ _ _ _ _ HE HS), HH.
  by repeat split.
Qed.

Lemma served_traced_starts_span name (handler : Handler T) w r world res :
  served_traced name handler w r world res ->
  forall psc,
    (tracer_Extract HTTPHeaders (deref world (Header r)) (tracer world)).1.1
      = psc ->
    starts_span name (parent_refs psc) res.
Proof.
  intros [psc err ts1 span ts2 o world3 HE HS HH] psc' Hp.
  rewrite HE in Hp; simpl in Hp; subst psc'. by exists span.
Qed.

Lemma served_traced_ends_as_handler name (handler : Handler T) w r world res :
  served_traced name handler w r world res ->
  forall psc,
    (tracer_Extract HTTPHeaders (deref world (Header r)) (tracer world)).1.1
      = psc ->
    ends_as_handler name (parent_refs psc) handler w r world res.
Proof.
  intros [psc err ts1 span ts2 o world3 HE HS HH] psc' Hp.
  rewrite HE in Hp; simpl in Hp; subst psc'. exists span.
  rewrite (entry_world_eq _ _ _ _ _ _ _ _ HE HS), HH.
  by repeat split.
Qed.

Lemma served_traced_finished_after name (handler : Handler T) w r world res :
  served_traced name handler w r world res -> finished_after_handler res.
Proof.
  intros [psc err ts1 span ts2 o world3 HE HS HH].
  exists name, (parent_refs psc), span,
    [CallExtract HTTPHeaders (Header r) psc err;
     CallStartSpan name (parent_refs psc) span], w, (with_span r span).
  by repeat split.
Qed.

Lemma served_traced_serves_with_span name (handler : Handler T) w r world res :
  served_traced name handler w r world res ->
  serves_with_span handler w r world res.
Proof.
  intros [psc err ts1 span ts2 o world3 HE HS HH].
  exists name, (parent_refs psc), span,
    [CallExtract HTTPHeaders (Header r) psc err], [CallFinish span],
    (with_span r span).
  rewrite (entry_world_eq _ _ _ _ _ _ _ _ HE HS), HH.
  by repeat split.
Qed.

(** C1. For every request served by a handler that [TraceHandler] returns
    (either source version), one span is started and [Finish] is called
    exactly once, on that span, as the last call and right after the
    wrapped handler was called; this holds for every wrapped handler and
    every outcome of it, a panic included: the outcome of the run is the
    outcome of the wrapped handler, and the final state is the one the
    wrapped handler left with the span finished in it. *)
Theorem C1_finish_exactly_once pattern (handler : Handler T) w r world :
  finishes_once handler w r world
    ((OpentracingHelpers.TraceHandler pattern handler).2 w r world)
  /\ finishes_once handler w r world
       ((Part000.TraceHandler pattern handler).2 w r world).
Proof.
  split; eapply served_traced_finishes_once.
  - apply helpers_served_traced.
  - apply part000_served_traced.
Qed.

(** C2 (amended). For every request for which [Extract] returns no
    [SpanContext] (nil), whatever error value comes with it, a handler
    that [TraceHandler] returns starts its span without any reference (a
    root span), goes on to call the wrapped handler, and ends as the
    wrapped handler does: it adds no error of its own. *)
Theorem C2_nil_context_root_span pattern (handler : Handler T) w r world :
  (tracer_Extract HTTPHeaders (deref world (Header r)) (tracer world)).1.1
    = None ->
  ends_as_handler pattern [] handler w r world
    ((OpentracingHelpers.TraceHandler pattern handler).2 w r world)
  /\ ends_as_handler (Method r +:+ " " +:+ pattern) [] handler w r world
       ((Part000.TraceHandler pattern handler).2 w r world).
Proof.
  intros Hnil. split.
  - exact (served_traced_ends_as_handler _ _ _ _ _ _
             (helpers_served_traced pattern handler w r world) None Hnil).
  - exact (served_traced_ends_as_handler _ _ _ _ _ _
             (part000_served_traced pattern handler w r world) None Hnil).
Qed.

(** C3. For every request from whose headers [Extract] returns a
    [SpanContext], the span a handler that [TraceHandler] returns starts
    is started with exactly one reference: [ChildOf] that context. *)
Theorem C3_child_of_extracted pattern (handler : Handler T) w r world psc :
  (tracer_Extract HTTPHeaders (deref world (Header r)) (tracer world)).1.1
    = Some psc ->
  starts_span pattern [ChildOf psc]
    ((OpentracingHelpers.TraceHandler pattern handler).2 w r world)
  /\ starts_span (Method r +:+ " " +:+ pattern) [ChildOf psc]
       ((Part000.TraceHandler pattern handler).2 w r world).
Proof.
  intros Hsome. split.
  - exact (served_traced_starts_span _ _ _ _ _ _
             (helpers_served_traced pattern handler w r world) _ Hsome).
  - exact (served_traced_starts_span _ _ _ _ _ _
             (part000_served_traced pattern handler w r world) _ Hsome).
Qed.

(** C7 (amended). For a request for which [Extract] returns no
    [SpanContext], the span is a root span and is finished, once, right
    after the wrapped handler was called; its name is the pattern in
    [src/opentracing_helpers.go], and the request's method, a space and
    the pattern in the version that also has [TraceRequest]. *)
Theorem C7_span_name_root_finished pattern (handler : Handler T) w r world :
  (tracer_Extract HTTPHeaders (deref world (Header r)) (tracer world)).1.1
    = None ->
  (starts_span pattern []
     ((OpentracingHelpers.TraceHandler pattern handler).2 w r world)
   /\ finished_after_handler
        ((OpentracingHelpers.TraceHandler pattern handler).2 w r world))
  /\ (starts_span (Method r +:+ " " +:+ pattern) []
        ((Part000.TraceHandler pattern handler).2 w r world)
      /\ finished_after_handler
           ((Part000.TraceHandler pattern handler).2 w r world)).
Proof.
  intros Hnil.
  pose proof (helpers_served_traced pattern handler w r world) as H1.
  pose proof (part000_served_traced pattern handler w r world) as H2.
  repeat split.
  - exact (served_traced_starts_span _ _ _ _ _ _ H1 None Hnil).
  - exact (served_traced_finished_after _ _ _ _ _ _ H1).
  - exact (served_traced_starts_span _ _ _ _ _ _ H2 None Hnil).
  - exact (served_traced_finished_after _ _ _ _ _ _ H2).
Qed.

(** C8. For every request, a handler that [TraceHandler] returns calls the
    wrapped handler once, after the span was started, with a request that
    differs from the one it got in its context only, and in that context
    [SpanFromContext] finds the started span. *)
Theorem C8_handler_gets_span pattern (handler : Handler T) w r world :
  serves_with_span handler w r world
    ((OpentracingHelpers.TraceHandler pattern handler).2 w r world)
  /\ serves_with_span handler w r world
       ((Part000.TraceHandler pattern handler).2 w r world).
Proof.
  split; eapply served_traced_serves_with_span.
  - apply helpers_served_traced.
  - apply part000_served_traced.
Qed.

End TraceHandlerFacts.

(** ** [TraceRequest] *)

Section TraceRequestFacts.
Context {T : Tracer}.

(** The run of [TraceRequest], call by call. *)
Lemma TraceRequest_run op c (r : Request T) world :
  let refs := context_refs c world in
  let st := tracer_StartSpan op refs (tracer world) in
  let sc := span_Context st.1 st.2 in
  let inj := tracer_Inject sc HTTPHeaders (deref world (Header r)) st.2 in
  Part000.TraceRequest op c r world
  = (Returned
       (WithContext r
          (WithClientTrace (Request_Context r)
             (Part000.TraceRequest_trace st.1)), st.1),
     set_headers (<[Header r := inj.1.1]> (headers world))
       (set_tracer inj.2 (set_tracer st.2 world)),
     [CallStartSpan op refs st.1;
      CallInject sc HTTPHeaders (Header r) inj.1.2]).
Proof.
  unfold Part000.TraceRequest, StartSpanFromContext, context_refs.
  unfold_exec.
  destruct (SpanFromContext c) as [parent|]; simpl;
    destruct (tracer_StartSpan _ _ _) as [span ts1]; simpl;
    unfold deref; simpl;
    destruct (tracer_Inject _ _ _ _) as [[h err] ts2]; reflexivity.
Qed.

Lemma deref_set_headers (world : World T) hs l h :
  deref (set_headers (<[l := h]> hs) world) l = h.
Proof. unfold deref; simpl. by rewrite lookup_insert_eq. Qed.

Lemma call_compose_hook {A : Type} (new old : Hook A) (a : A) (w : World T) :
  call_hook (compose_hook new old) a w
  = (call_hook new a ;; call_hook old a) w.
Proof.
  destruct new as [n|], old as [o|]; simpl.
  - reflexivity.
  - symmetry. apply Exec_bind_ret_r.
  - symmetry. apply (Exec_bind_ret_l tt (fun _ => o a)).
  - reflexivity.
Qed.

Lemma fire_compose (t : ClientTrace) (old : option ClientTrace) e
    (w : World T) :
  fire (compose t old) e w = (fire t e ;; fire_old old e) w.
Proof.
  destruct old as [o|]; simpl.
  - destruct e; simpl; apply call_compose_hook.
  - symmetry. apply Exec_bind_ret_r.
Qed.

Lemma fire_trace span e (w : World T) :
  if logged e
  then exists fs,
      fire (Part000.TraceRequest_trace span) e w
      = (Returned tt, set_tracer (span_LogFields span fs (tracer w)) w,
         [CallLogFields span fs])
  else fire (Part000.TraceRequest_trace span) e w = (Returned tt, w, []).
Proof. destruct e; simpl; try reflexivity; eexists; reflexivity. Qed.

Lemma fire_all_trace span es (w : World T) :
  (fire_all (Part000.TraceRequest_trace span) es w).1.1 = Returned tt
  /\ length (fire_all (Part000.TraceRequest_trace span) es w).2
     = length (List.filter logged es)
  /\ Forall (fun c => exists fs, c = CallLogFields span fs)
       (fire_all (Part000.TraceRequest_trace span) es w).2.
Proof.
  revert w. induction es as [|e es IH]; intros w; [by repeat split|].
  simpl. unfold mbind, Exec_MBind, Exec_bind.
  pose proof (fire_trace span e w) as He.
  destruct (logged e).
  - destruct He as [fs ->].
    destruct (IH (set_tracer (span_LogFields span fs (tracer w)) w))
      as (Ho & Hl & Hf).
    destruct (fire_all _ es _) as [[o w2] c2]; simpl in *.
    repeat split; [done | by rewrite Hl |].
    constructor; [by exists fs | done].
  - rewrite He. destruct (IH w) as (Ho & Hl & Hf).
    destruct (fire_all _ es _) as [[o w2] c2]; simpl in *. done.
Qed.

(** C4. For every operation name, context and request, [TraceRequest]
    returns (it does not panic) a request and a span; the calls it makes
    are two: it starts the span, as a child of the span found in the given
    context if there is one, and it has the tracer write that span's
    context, in the HTTP header format, into the header map of the request.
    The returned request is the given one (same method, URL and header map,
    which now holds what the tracer wrote) with the client trace added to
    its context.  It calls neither [Finish] nor any handler or transport,
    and the tracer is left as [Inject] left it. *)
Theorem C4_trace_request op c (r : Request T) world :
  let res := Part000.TraceRequest op c r world in
  let st := tracer_StartSpan op (context_refs c world) (tracer world) in
  exists r' span sc err,
    res.1.1 = Returned (r', span)
    /\ span = st.1
    /\ sc = span_Context span st.2
    /\ res.2 = [CallStartSpan op (context_refs c world) span;
                CallInject sc HTTPHeaders (Header r) err]
    /\ (Method r' = Method r /\ URL r' = URL r /\ Header r' = Header r)
    /\ deref res.1.2 (Header r')
       = (tracer_Inject sc HTTPHeaders (deref world (Header r)) st.2).1.1
    /\ ContextClientTrace (Request_Context r')
       = Some (compose (Part000.TraceRequest_trace span)
                 (ContextClientTrace (Request_Context r)))
    /\ finished res.2 = [] /\ served res.2 = []
    /\ tracer res.1.2
       = (tracer_Inject sc HTTPHeaders (deref world (Header r)) st.2).2
    /\ responses res.1.2 = responses world.
Proof.
  intros res st. subst res. rewrite TraceRequest_run. fold st.
  eexists _, _, _, _. repeat split; try reflexivity.
  simpl. apply deref_set_headers.
Qed.

(** C5 (amended). Under a tracer whose [Inject] succeeds for the HTTP
    header format, whose [Extract] reads back what its [Inject] wrote, and
    whose [Inject] leaves the contexts of spans alone, extracting from the
    headers of the request [TraceRequest] returned gives the context of the
    span it returned, and no error. *)
Theorem C5_round_trip_lawful_tracer op c (r : Request T) world :
  CarrierRoundTrip T ->
  round_trips (Part000.TraceRequest op c r world).
Proof.
  intros Hlaw. unfold round_trips. rewrite TraceRequest_run.
  eexists _, _. split; [reflexivity|]. cbn [fst snd].
  rewrite deref_set_headers.
  cbn [tracer set_headers set_tracer WithContext Header].
  rewrite inject_keeps_contexts. apply extract_inject.
Qed.

(** C6. The client trace in the context of the request [TraceRequest]
    returns runs the hooks [TraceRequest] attached and then those the
    context held before.  Each time one of the seven events with an
    attached hook fires, that hook calls [LogFields] on the span exactly
    once and does nothing else; for any other event nothing is logged.
    So firing a sequence of events logs as many entries, all on the span,
    as it has events among the seven: none for an event that is not in
    it. *)
Theorem C6_one_entry_per_event op c (r : Request T) world :
  let res := Part000.TraceRequest op c r world in
  exists r' span ct,
    res.1.1 = Returned (r', span)
    /\ ContextClientTrace (Request_Context r') = Some ct
    /\ (ContextClientTrace (Request_Context r) = None ->
        ct = Part000.TraceRequest_trace span)
    /\ (forall e w,
          fire ct e w
          = (fire (Part000.TraceRequest_trace span) e ;;
             fire_old (ContextClientTrace (Request_Context r)) e) w)
    /\ (forall e w,
          if logged e
          then exists fs,
              fire (Part000.TraceRequest_trace span) e w
              = (Returned tt,
                 set_tracer (span_LogFields span fs (tracer w)) w,
                 [CallLogFields span fs])
          else fire (Part000.TraceRequest_trace span) e w
               = (Returned tt, w, []))
    /\ (forall es w,
          (fire_all (Part000.TraceRequest_trace span) es w).1.1 = Returned tt
          /\ length (fire_all (Part000.TraceRequest_trace span) es w).2
             = length (List.filter logged es)
          /\ Forall (fun c => exists fs, c = CallLogFields span fs)
               (fire_all (Part000.TraceRequest_trace span) es w).2).
Proof.
  intros res. subst res. rewrite TraceRequest_run.
  eexists _, _, _. split; [reflexivity|]. split; [reflexivity|].
  split; [by intros ->|]. split; [|split].
  - intros e w. apply fire_compose.
  - intros e w. apply fire_trace.
  - intros es w. apply fire_all_trace.
Qed.

(** C9. When the tracer's [Inject] returns an error, [TraceRequest] still
    returns, with the span and the request: the error appears in no result,
    and the request's header map holds whatever the failed [Inject]
    left in it. *)
Theorem C9_inject_error_discarded op c (r : Request T) world e :
  let st := tracer_StartSpan op (context_refs c world) (tracer world) in
  let sc := span_Context st.1 st.2 in
  let inj := tracer_Inject sc HTTPHeaders (deref world (Header r)) st.2 in
  inj.1.2 = Some e ->
  let res := Part000.TraceRequest op c r world in
  exists r',
    res.1.1 = Returned (r', st.1)
    /\ res.2 = [CallStartSpan op (context_refs c world) st.1;
                CallInject sc HTTPHeaders (Header r) (Some e)]
    /\ Header r' = Header r
    /\ deref res.1.2 (Header r') = inj.1.1.
Proof.
  intros st sc inj He res. subst res. rewrite TraceRequest_run.
  fold st. fold sc. fold inj. rewrite He.
  eexists. repeat split. simpl. apply deref_set_headers.
Qed.

(** C10. For every context in which [SpanFromContext] finds no span,
    [TraceRequest] returns, and the span it started was started without
    any reference: a root span. *)
Theorem C10_no_span_in_context_root op c (r : Request T) world :
  SpanFromContext c = None ->
  let res := Part000.TraceRequest op c r world in
  exists r' span,
    res.1.1 = Returned (r', span)
    /\ started res.2 = [(op, [], span)].
Proof.
  intros Hnone res. subst res. rewrite TraceRequest_run.
  unfold context_refs. rewrite Hnone. eexists _, _. by split.
Qed.

End TraceRequestFacts.

(** ** The recording tracer is lawful *)

Lemma parse_print_id n : Recording.parse_id (Recording.print_id n) = Some n.
Proof.
  unfold Recording.parse_id, Recording.print_id.
  rewrite NilEmpty.usu. simpl. f_equal. apply DecimalNat.Unsigned.of_to.
Qed.

Lemma recording_round_trip : CarrierRoundTrip rec_std.
Proof.
  split.
  - reflexivity.
  - intros sc h ts. simpl. unfold Recording.Inject, Recording.Extract. simpl.
    unfold Header_Get, Header_Set.
    rewrite lookup_insert_ne by done.
    rewrite !lookup_insert_eq, !parse_print_id. by destruct sc.
  - reflexivity.
Qed.

(** ** The claims at concrete inputs *)

Lemma C2_witness :
  (extract_foo rec_std std_world).1.1 = None
  /\ ends_as_handler "/foo" [] (ok_handler rec_std) 7 (get_foo rec_std)
       std_world (helpers_foo rec_std (ok_handler rec_std) std_world)
  /\ ends_as_handler "GET /foo" [] (ok_handler rec_std) 7 (get_foo rec_std)
       std_world (part000_foo rec_std (ok_handler rec_std) std_world).
Proof.
  split; [reflexivity|].
  apply (C2_nil_context_root_span (T := rec_std) "/foo" (ok_handler rec_std)
           7 (get_foo rec_std) std_world).
  reflexivity.
Defined.

(** C2, as stated, fails: for a request without trace headers the tracer
    [rec_zero] reports that no context was found, so extraction fails, yet
    it hands back the zero context, and the span is started as a child of
    that context, in both versions; likewise for a request whose trace
    headers are corrupted. *)
Lemma C2_counterexample :
  ((extract_foo rec_zero zero_world).1.2 = Some ErrSpanContextNotFound
   /\ ~ (exists name,
           starts_span name []
             (helpers_foo rec_zero (ok_handler rec_zero) zero_world))
   /\ ~ (exists name,
           starts_span name []
             (part000_foo rec_zero (ok_handler rec_zero) zero_world)))
  /\ ((extract_foo rec_zero corrupt_world).1.2 = Some ErrSpanContextCorrupted
      /\ ~ (exists name,
              starts_span name []
                (helpers_foo rec_zero (ok_handler rec_zero) corrupt_world))
      /\ ~ (exists name,
              starts_span name []
                (part000_foo rec_zero (ok_handler rec_zero) corrupt_world))).
Proof.
  split; (split; [reflexivity|]);
    split; intros [name [span H]]; vm_compute in H; discriminate H.
Qed.

Lemma C3_witness :
  (extract_foo rec_std traced_world).1.1
    = Some {| Recording.TraceID := 5; Recording.SpanID := 9 |}
  /\ starts_span (T := rec_std) "/foo"
       [ChildOf {| Recording.TraceID := 5; Recording.SpanID := 9 |}]
       (helpers_foo rec_std (ok_handler rec_std) traced_world)
  /\ starts_span (T := rec_std) "GET /foo"
       [ChildOf {| Recording.TraceID := 5; Recording.SpanID := 9 |}]
       (part000_foo rec_std (ok_handler rec_std) traced_world).
Proof.
  split; [reflexivity|].
  apply (C3_child_of_extracted (T := rec_std) "/foo" (ok_handler rec_std) 7
           (get_foo rec_std) traced_world).
  reflexivity.
Defined.

Lemma C5_witness : round_trips (trace_example rec_std std_world).
Proof.
  apply (C5_round_trip_lawful_tracer (T := rec_std) "GET example.com"
           Background (get_example rec_std) std_world).
  exact recording_round_trip.
Defined.

(** C5, as stated, fails under the tracer that is the global tracer until
    another is registered: it writes nothing, and it extracts nothing. *)
Lemma C5_counterexample : ~ round_trips (trace_example NoopTracer noop_world).
Proof. intros (r' & span & _ & H). simpl in H. discriminate H. Qed.

Lemma C7_witness :
  (extract_foo rec_std std_world).1.1 = None
  /\ (starts_span "/foo" []
        (helpers_foo rec_std (ok_handler rec_std) std_world)
      /\ finished_after_handler
           (helpers_foo rec_std (ok_handler rec_std) std_world))
  /\ (starts_span "GET /foo" []
        (part000_foo rec_std (ok_handler rec_std) std_world)
      /\ finished_after_handler
           (part000_foo rec_std (ok_handler rec_std) std_world)).
Proof.
  split; [reflexivity|].
  apply (C7_span_name_root_finished (T := rec_std) "/foo"
           (ok_handler rec_std) 7 (get_foo rec_std) std_world).
  reflexivity.
Defined.

(** C7, as stated, fails for the version that has [TraceRequest]: for the
    pattern "/foo" and a GET request with an empty header map, the one span
    it starts is a root span, but its name is "GET /foo". *)
Lemma C7_counterexample :
  deref std_world (Header (get_foo rec_std)) = ∅
  /\ (extract_foo rec_std std_world).1.1 = None
  /\ started (part000_foo rec_std (ok_handler rec_std) std_world).2
     = [("GET /foo", [], 1)]
  /\ ~ starts_span "/foo" []
         (part000_foo rec_std (ok_handler rec_std) std_world).
Proof.
  split; [reflexivity|]. split; [reflexivity|]. split; [reflexivity|].
  intros [span H]. vm_compute in H. discriminate H.
Qed.

Lemma C9_witness :
  (tracer_Inject (Tracer := rec_none)
     {| Recording.TraceID := 2; Recording.SpanID := 1 |} HTTPHeaders
     (deref none_world 0)
     (tracer_StartSpan (Tracer := rec_none) "GET example.com" []
        Recording.init).2).1.2
    = Some ErrUnsupportedFormat
  /\ exists r',
      (trace_example rec_none none_world).1.1 = Returned (r', 1)
      /\ (trace_example rec_none none_world).2
         = [CallStartSpan (T := rec_none) "GET example.com" [] 1;
            CallInject (T := rec_none)
              {| Recording.TraceID := 2; Recording.SpanID := 1 |}
              HTTPHeaders 0 (Some ErrUnsupportedFormat)]
      /\ Header r' = 0
      /\ deref (trace_example rec_none none_world).1.2 (Header r') = ∅.
Proof.
  split; [reflexivity|].
  apply (C9_inject_error_discarded (T := rec_none) "GET example.com"
           Background (get_example rec_none) none_world
           ErrUnsupportedFormat).
  reflexivity.
Defined.

Lemma C10_witness :
  SpanFromContext (T := rec_std) Background = None
  /\ exists r' span,
      (trace_example rec_std std_world).1.1 = Returned (r', span)
      /\ started (trace_example rec_std std_world).2
         = [("GET example.com", [], span)].
Proof.
  split; [reflexivity|].
  apply (C10_no_span_in_context_root (T := rec_std) "GET example.com"
           Background (get_example rec_std) std_world).
  reflexivity.
Defined.

(** ** The helpers run with the recording tracer *)

(** A wrapped handler that panics: the panic goes on, and the span, a child
    of the context in the headers, is recorded as finished once. *)
Example finish_recorded_on_panic :
  let res := part000_foo rec_std (panicking_handler rec_std) traced_world in
  res.1.1 = Panicked "boom"
  /\ Recording.spans (tracer res.1.2) !! 1
     = Some {| Recording.SpanCtx :=
                 {| Recording.TraceID := 5; Recording.SpanID := 1 |};
               Recording.ParentID := 9;
               Recording.OperationName := "GET /foo";
               Recording.Logs := [];
               Recording.FinishCount := 1 |}.
Proof. vm_compute. split; reflexivity. Qed.

(** [TraceRequest] leaves the span open and the span's identifiers in the
    header map of the request it returns. *)
Example trace_request_recorded :
  let res := trace_example rec_std std_world in
  option_map Recording.FinishCount (Recording.spans (tracer res.1.2) !! 1)
    = Some 0
  /\ Header_Get (deref res.1.2 0) Recording.traceKey = Some "2"
  /\ Header_Get (deref res.1.2 0) Recording.spanKey = Some "1".
Proof. vm_compute. repeat split; reflexivity. Qed.

(** A round trip to an IP-literal host fires no DNS event: the span gets
    five log records, one per event with a hook, none about DNS. *)
Example ip_literal_round_trip_logs :
  let res := trace_example rec_std std_world in
  match returned_trace res with
  | Some ct =>
      recorded_logs (tracer (fire_all ct ip_literal_events res.1.2).1.2) 1
  | None => []
  end
  = [[log_String "event" "Get Connection ";
      log_String "host:port" "10.0.0.1:80"];
     [log_String "event" "Connect Done";
      log_Object "network" (ObjString "tcp");
      log_String "address" "10.0.0.1:80";
      log_Error None];
     [log_String "event" "Got Connection";
      log_Object "connection info"
        (ObjGotConnInfo
           {| Reused := false; WasIdle := false; IdleTime := 0 |})];
     [log_String "event" "Wrote Request";
      log_Object "wrote request info"
        (ObjWroteRequestInfo {| WroteErr := None |})];
     [log_String "event" "Got First Response Byte"]].
Proof. vm_compute. reflexivity. Qed.

(** * Further properties of the helpers *)

(** ** Contexts *)

Section ContextFacts.
Context {T : Tracer}.


Lemma Value_ContextWithSpan (c : Context) (span : Span) key :
  key <> activeSpanKey ->
  Value (ContextWithSpan c span) key = Value c key.
Proof.
  intros Hk. unfold ContextWithSpan, WithValue. simpl.
  by rewrite decide_False.
Qed.

Lemma SpanFromContext_with_span (r : Request T) (span : Span) :
  SpanFromContext (Request_Context (with_span r span)) = Some span.
Proof. reflexivity. Qed.


Lemma served_traced_passes_context name (handler : Handler T) w r world res :
  served_traced name handler w r world res -> passes_context r res.
Proof.
  intros [psc err ts1 span ts2 o world3 HE HS HH].
  exists (with_span r span). split; [reflexivity|]. split.
  - intros key Hk. by apply Value_ContextWithSpan.
  - reflexivity.
Qed.

(** X2. The request a handler built by [TraceHandler] passes to the wrapped
    handler has, under every key but the one of the active span, the value
    the served request had; a client trace in the context is passed on. *)
Theorem X2_handler_passes_context pattern (handler : Handler T) w r world :
  passes_context r
    ((OpentracingHelpers.TraceHandler pattern handler).2 w r world)
  /\ passes_context r ((Part000.TraceHandler pattern handler).2 w r world).
Proof.
  split; eapply served_traced_passes_context.
  - apply helpers_served_traced.
  - apply part000_served_traced.
Qed.

Lemma served_traced_started name (handler : Handler T) w r world res :
  served_traced name handler w r world res ->
  started res.2
  = (let e := tracer_Extract HTTPHeaders (deref world (Header r))
                (tracer world) in
     [(name, parent_refs e.1.1,
       (tracer_StartSpan name (parent_refs e.1.1) e.2).1)]).
Proof.
  intros [psc err ts1 span ts2 o world3 HE HS HH].
  rewrite HE. simpl. by rewrite HS.
Qed.

(** X3. A span already in the context of the served request plays no part:
    for any context put on the request, and any wrapped handler, the
    handler built by [TraceHandler] starts the same span, with the same
    name and references, which come from the headers alone. *)
Theorem X3_context_span_ignored pattern (handler1 handler2 : Handler T)
    w1 w2 r c world :
  started
    ((OpentracingHelpers.TraceHandler pattern handler1).2 w1
       (WithContext r c) world).2
  = started
      ((OpentracingHelpers.TraceHandler pattern handler2).2 w2 r world).2
  /\ started
       ((Part000.TraceHandler pattern handler1).2 w1 (WithContext r c)
          world).2
     = started ((Part000.TraceHandler pattern handler2).2 w2 r world).2.
Proof.
  split.
  - rewrite (served_traced_started _ _ _ _ _ _
               (helpers_served_traced pattern handler1 w1 _ world)).
    by rewrite (served_traced_started _ _ _ _ _ _
                  (helpers_served_traced pattern handler2 w2 r world)).
  - rewrite (served_traced_started _ _ _ _ _ _
               (part000_served_traced pattern handler1 w1 _ world)).
    by rewrite (served_traced_started _ _ _ _ _ _
                  (part000_served_traced pattern handler2 w2 r world)).
Qed.

Lemma served_traced_outbound_is_child name (handler : Handler T) w r world
    res :
  served_traced name handler w r world res -> outbound_is_child res.
Proof.
  intros [psc err ts1 span ts2 o world3 HE HS HH].
  exists name, (parent_refs psc), span, (with_span r span).
  split; [reflexivity|]. split; [reflexivity|].
  intros op req world'. rewrite TraceRequest_run.
  unfold context_refs. rewrite SpanFromContext_with_span.
  eexists. reflexivity.
Qed.

(** X4. Inbound and outbound tracing compose: when the wrapped handler
    calls [TraceRequest] with the context of the request it received, the
    outbound span is started as a child of the span the handler built by
    [TraceHandler] started for that request. *)
Theorem X4_outbound_child_of_inbound pattern (handler : Handler T) w r world :
  outbound_is_child
    ((OpentracingHelpers.TraceHandler pattern handler).2 w r world)
  /\ outbound_is_child ((Part000.TraceHandler pattern handler).2 w r world).
Proof.
  split; eapply served_traced_outbound_is_child.
  - apply helpers_served_traced.
  - apply part000_served_traced.
Qed.

Lemma TraceRequest_extract op c (r : Request T) world :
  CarrierRoundTrip T ->
  let res := Part000.TraceRequest op c r world in
  exists r' span,
    res.1.1 = Returned (r', span)
    /\ Method r' = Method r
    /\ (tracer_Extract HTTPHeaders (deref res.1.2 (Header r'))
          (tracer res.1.2)).1.1
       = Some (span_Context span (tracer res.1.2)).
Proof.
  intros Hlaw res. subst res. rewrite TraceRequest_run.
  eexists _, _. split; [reflexivity|]. split; [reflexivity|].
  cbn [fst snd]. rewrite deref_set_headers.
  cbn [tracer set_headers set_tracer WithContext Header].
  rewrite inject_keeps_contexts. by rewrite extract_inject.
Qed.

(** X5. Propagation from client to server: under a tracer whose [Extract]
    reads back what its [Inject] wrote, a handler built by [TraceHandler]
    that serves the request [TraceRequest] returned starts its span as a
    child of the span [TraceRequest] returned. *)
Theorem X5_propagation op c (r : Request T) world pattern
    (handler : Handler T) w :
  CarrierRoundTrip T ->
  let res := Part000.TraceRequest op c r world in
  exists r' span,
    res.1.1 = Returned (r', span)
    /\ starts_span pattern [ChildOf (span_Context span (tracer res.1.2))]
         ((OpentracingHelpers.TraceHandler pattern handler).2 w r' res.1.2)
    /\ starts_span (Method r +:+ " " +:+ pattern)
         [ChildOf (span_Context span (tracer res.1.2))]
         ((Part000.TraceHandler pattern handler).2 w r' res.1.2).
Proof.
  intros Hlaw res.
  destruct (TraceRequest_extract op c r world Hlaw)
    as (r' & span & Hres & HM & HE).
  exists r', span. split; [exact Hres|]. rewrite <- HM. split.
  - exact (served_traced_starts_span _ _ _ _ _ _
             (helpers_served_traced pattern handler w r' _) _ HE).
  - exact (served_traced_starts_span _ _ _ _ _ _
             (part000_served_traced pattern handler w r' _) _ HE).
Qed.

End ContextFacts.

(** ** Client traces *)

Section TraceFacts.
Context {T : Tracer}.

Lemma Exec_bind_ext {L A B : Type} (m : Exec L A) (k1 k2 : A -> Exec L B)
    (w : World T) :
  (forall a w', k1 a w' = k2 a w') -> (m ≫= k1) w = (m ≫= k2) w.
Proof.
  intros Hk. unfold mbind, Exec_MBind, Exec_bind.
  destruct (m w) as [[[a|v] w1] c1]; [|done]. by rewrite Hk.
Qed.

(** What a hook of [TraceRequest] logs depends on the event alone. *)
Lemma fire_trace_fields e :
  if logged e
  then exists name rest,
      forall (span : Span) (w : World T),
        fire (Part000.TraceRequest_trace span) e w
        = (Returned tt,
           set_tracer
             (span_LogFields span (log_String "event" name :: rest)
                (tracer w)) w,
           [CallLogFields span (log_String "event" name :: rest)])
  else forall (span : Span) (w : World T),
      fire (Part000.TraceRequest_trace span) e w = (Returned tt, w, []).
Proof.
  destruct e; simpl; try (intros; reflexivity);
    eexists _, _; intros; reflexivity.
Qed.

(** X6. A request traced twice carries the hooks of both calls: for each
    event the hook of the second span runs, then that of the first, then
    what the context held before.  With nothing there before, each of the
    seven events logs exactly two records, the same fields on the second
    span and then on the first, and any other event logs nothing. *)
Theorem X6_traced_twice op1 c1 op2 c2 (r : Request T) world :
  let res1 := Part000.TraceRequest op1 c1 r world in
  exists r1 span1 r2 span2 ct,
    res1.1.1 = Returned (r1, span1)
    /\ (Part000.TraceRequest op2 c2 r1 res1.1.2).1.1 = Returned (r2, span2)
    /\ ContextClientTrace (Request_Context r2) = Some ct
    /\ (forall e w,
          fire ct e w
          = (fire (Part000.TraceRequest_trace span2) e ;;
             (fire (Part000.TraceRequest_trace span1) e ;;
              fire_old (ContextClientTrace (Request_Context r)) e)) w)
    /\ (ContextClientTrace (Request_Context r) = None ->
        forall e w,
          if logged e
          then exists fs,
              (fire ct e w).2
              = [CallLogFields span2 fs; CallLogFields span1 fs]
          else (fire ct e w).2 = []).
Proof.
  intros res1. subst res1.
  set (world1 := (Part000.TraceRequest op1 c1 r world).1.2).
  set (st1 := tracer_StartSpan op1 (context_refs c1 world) (tracer world)).
  set (st2 := tracer_StartSpan op2 (context_refs c2 world1) (tracer world1)).
  set (t1 := Part000.TraceRequest_trace st1.1).
  set (t2 := Part000.TraceRequest_trace st2.1).
  set (r1 := WithContext r (WithClientTrace (Request_Context r) t1)).
  set (old := ContextClientTrace (Request_Context r)).
  assert (Heq : forall e w,
             fire (compose t2 (Some (compose t1 old))) e w
             = (fire t2 e ;; (fire t1 e ;; fire_old old e)) w).
  { intros e w. rewrite fire_compose. apply Exec_bind_ext. intros _ w'.
    cbn [fire_old]. apply fire_compose. }
  exists r1, st1.1, (WithContext r1 (WithClientTrace (Request_Context r1) t2)),
    st2.1, (compose t2 (Some (compose t1 old))).
  split; [by rewrite TraceRequest_run|].
  split; [by rewrite TraceRequest_run|].
  split; [reflexivity|]. split; [exact Heq|].
  intros Hold e w. rewrite Heq, Hold.
  pose proof (fire_trace_fields e) as He. subst t1 t2.
  destruct (logged e).
  - destruct He as (name & rest & He). exists (log_String "event" name :: rest).
    unfold mbind, Exec_MBind, Exec_bind. by rewrite !He.
  - unfold mbind, Exec_MBind, Exec_bind. by rewrite !He.
Qed.

Lemma fire_all_names_event span es (w : World T) :
  Forall (names_event span)
    (fire_all (Part000.TraceRequest_trace span) es w).2.
Proof.
  revert w. induction es as [|e es IH]; intros w; [constructor|].
  simpl. unfold mbind, Exec_MBind, Exec_bind.
  pose proof (fire_trace_fields e) as He.
  destruct (logged e).
  - destruct He as (name & rest & He). rewrite He.
    specialize (IH (set_tracer
                      (span_LogFields span (log_String "event" name :: rest)
                         (tracer w)) w)).
    destruct (fire_all _ es _) as [[o w2] c2]; simpl in *.
    constructor; [by exists name, rest | done].
  - rewrite He. specialize (IH w).
    by destruct (fire_all _ es _) as [[o w2] c2].
Qed.

(** X9. Whatever events fire, every record the hooks of [TraceRequest] log
    is logged on the span and has, as its first field, the string field
    "event" that names what happened. *)
Theorem X9_records_name_event op c (r : Request T) world :
  let res := Part000.TraceRequest op c r world in
  exists r' span,
    res.1.1 = Returned (r', span)
    /\ forall es w,
         Forall (names_event span)
           (fire_all (Part000.TraceRequest_trace span) es w).2.
Proof.
  intros res. subst res. rewrite TraceRequest_run.
  eexists _, _. split; [reflexivity|]. intros es w.
  apply fire_all_names_event.
Qed.

(** X10. The name in the "event" field tells the hooks apart: two events
    whose records carry the same name are events of the same kind. *)
Theorem X10_event_name_determines_hook (span1 span2 : Span) e1 e2
    (w1 w2 : World T) n fs1 fs2 :
  (fire (Part000.TraceRequest_trace span1) e1 w1).2
    = [CallLogFields span1 (log_String "event" n :: fs1)] ->
  (fire (Part000.TraceRequest_trace span2) e2 w2).2
    = [CallLogFields span2 (log_String "event" n :: fs2)] ->
  same_hook e1 e2 = true.
Proof.
  intros H1 H2.
  destruct e1; simpl in H1; try discriminate H1;
    destruct e2; simpl in H2; try discriminate H2;
    try reflexivity; simplify_eq.
Qed.

End TraceFacts.

(** ** What the helpers leave alone *)

Section FrameFacts.
Context {T : Tracer}.

(** X7. [TraceRequest] writes to the header map of the given request and to
    no other, and it reads no carrier: every other header map is as it
    was. *)
Theorem X7_trace_request_frame op c (r : Request T) world :
  let res := Part000.TraceRequest op c r world in
  (forall l, l <> Header r -> headers res.1.2 !! l = headers world !! l)
  /\ injected res.2
     = [(span_Context
           (tracer_StartSpan op (context_refs c world) (tracer world)).1
           (tracer_StartSpan op (context_refs c world) (tracer world)).2,
         HTTPHeaders, Header r)]
  /\ extracted res.2 = [].
Proof.
  intros res. subst res. rewrite TraceRequest_run. cbn [fst snd].
  split; [|by split].
  intros l Hl. simpl. by rewrite lookup_insert_ne.
Qed.

Lemma served_traced_writes_nothing name (handler : Handler T) w r world res :
  served_traced name handler w r world res ->
  writes_nothing handler w r world res.
Proof.
  intros [psc err ts1 span ts2 o world3 HE HS HH].
  split; [reflexivity|]. split; [reflexivity|].
  exists name, (parent_refs psc), span.
  rewrite (entry_world_eq _ _ _ _ _ _ _ _ HE HS), HH.
  by repeat split.
Qed.

(** X8. A handler built by [TraceHandler] reads the header map of the
    request, once, and writes to no header map and to no response: the
    wrapped handler starts with the header maps and responses the run
    started with, and the run ends with those the wrapped handler left. *)
Theorem X8_handler_writes_nothing pattern (handler : Handler T) w r world :
  writes_nothing handler w r world
    ((OpentracingHelpers.TraceHandler pattern handler).2 w r world)
  /\ writes_nothing handler w r world
       ((Part000.TraceHandler pattern handler).2 w r world).
Proof.
  split; eapply served_traced_writes_nothing.
  - apply helpers_served_traced.
  - apply part000_served_traced.
Qed.

End FrameFacts.

(** ** Span names *)

Lemma string_length_app (s t : string) :
  String.length (s +:+ t) = String.length s + String.length t.
Proof. induction s as [|a s IH]; simpl; [done | by rewrite IH]. Qed.

Lemma string_app_inj_r (s1 s2 t : string) : s1 +:+ t = s2 +:+ t -> s1 = s2.
Proof.
  revert s2. induction s1 as [|a s1 IH]; intros [|b s2] H; simpl in H.
  - reflexivity.
  - apply (f_equal String.length) in H.
    rewrite !string_length_app in H. simpl in H.
    rewrite ?string_length_app in H. lia.
  - apply (f_equal String.length) in H.
    rewrite !string_length_app in H. simpl in H.
    rewrite ?string_length_app in H. lia.
  - injection H as -> H. f_equal. by apply IH.
Qed.

Section NameFacts.
Context {T : Tracer}.

(** X11. In the version with [TraceRequest], requests with different
    methods served under one pattern start spans with different names. *)
Theorem X11_method_in_span_name pattern (handler1 handler2 : Handler T)
    w1 w2 r1 r2 world1 world2 n1 n2 refs1 refs2 span1 span2 :
  Method r1 <> Method r2 ->
  started ((Part000.TraceHandler pattern handler1).2 w1 r1 world1).2
    = [(n1, refs1, span1)] ->
  started ((Part000.TraceHandler pattern handler2).2 w2 r2 world2).2
    = [(n2, refs2, span2)] ->
  n1 <> n2.
Proof.
  intros Hm H1 H2 Hn.
  rewrite (served_traced_started _ _ _ _ _ _
             (part000_served_traced pattern handler1 w1 r1 world1)) in H1.
  rewrite (served_traced_started _ _ _ _ _ _
             (part000_served_traced pattern handler2 w2 r2 world2)) in H2.
  simpl in H1, H2. injection H1 as <- _ _. injection H2 as <- _ _.
  by apply string_app_inj_r in Hn.
Qed.

(** X12. In [src/opentracing_helpers.go] the name of the span is the
    pattern for every request: whatever the method, the headers, the state
    and the wrapped handler, two requests served under one pattern start
    spans of the same name. *)
Theorem X12_pattern_is_span_name pattern (handler1 handler2 : Handler T)
    w1 w2 r1 r2 world1 world2 :
  exists refs1 span1 refs2 span2,
    started
      ((OpentracingHelpers.TraceHandler pattern handler1).2 w1 r1 world1).2
    = [(pattern, refs1, span1)]
    /\ started
         ((OpentracingHelpers.TraceHandler pattern handler2).2 w2 r2
            world2).2
       = [(pattern, refs2, span2)].
Proof.
  rewrite (served_traced_started _ _ _ _ _ _
             (helpers_served_traced pattern handler1 w1 r1 world1)).
  rewrite (served_traced_started _ _ _ _ _ _
             (helpers_served_traced pattern handler2 w2 r2 world2)).
  by eexists _, _, _, _.
Qed.

End NameFacts.

(** ** The further properties at concrete inputs *)

Lemma X5_witness :
  exists r' span,
    (trace_example rec_std std_world).1.1 = Returned (r', span)
    /\ starts_span "/foo"
         [ChildOf
            (span_Context span (tracer (trace_example rec_std std_world).1.2))]
         ((OpentracingHelpers.TraceHandler "/foo" (ok_handler rec_std)).2 7
            r' (trace_example rec_std std_world).1.2)
    /\ starts_span "GET /foo"
         [ChildOf
            (span_Context span (tracer (trace_example rec_std std_world).1.2))]
         ((Part000.TraceHandler "/foo" (ok_handler rec_std)).2 7 r'
            (trace_example rec_std std_world).1.2).
Proof.
  apply (X5_propagation (T := rec_std) "GET example.com" Background
           (get_example rec_std) std_world "/foo" (ok_handler rec_std) 7).
  exact recording_round_trip.
Defined.

Lemma X10_witness :
  (fire (Part000.TraceRequest_trace (T := rec_std) 1) (EvGetConn "a:80")
     std_world).2
    = [CallLogFields (T := rec_std) 1
         [log_String "event" "Get Connection ";
          log_String "host:port" "a:80"]]
  /\ (fire (Part000.TraceRequest_trace (T := rec_std) 2) (EvGetConn "b:80")
        std_world).2
     = [CallLogFields (T := rec_std) 2
          [log_String "event" "Get Connection ";
           log_String "host:port" "b:80"]]
  /\ same_hook (EvGetConn "a:80") (EvGetConn "b:80") = true.
Proof.
  split; [reflexivity|]. split; [reflexivity|].
  apply (X10_event_name_determines_hook (T := rec_std) 1 2
           (EvGetConn "a:80") (EvGetConn "b:80") std_world std_world
           "Get Connection " [log_String "host:port" "a:80"]
           [log_String "host:port" "b:80"]); reflexivity.
Defined.

Lemma X11_witness :
  Method (get_foo rec_std) <> Method (post_foo rec_std)
  /\ "GET /foo" <> "POST /foo".
Proof.
  split; [discriminate|].
  apply (X11_method_in_span_name (T := rec_std) "/foo" (ok_handler rec_std)
           (ok_handler rec_std) 7 7 (get_foo rec_std) (post_foo rec_std)
           std_world std_world "GET /foo" "POST /foo" [] [] 1 1).
  - discriminate.
  - reflexivity.
  - reflexivity.
Defined.
